(** * fuzzydate: a shallow embedding of [src/fuzzydate/fuzzydate.py]

    A Python [str] is a sequence of Unicode code points, modelled as
    [list N].  The [datetime.date] base class is the CPython C type
    ([_datetime]); the builtin [int()] on a [str] follows CPython's
    [PyLong_FromUnicodeObject] (Python 3.12/3.13, Unicode 15). *)

From Stdlib Require Import ZArith NArith List String Ascii Bool Lia.
From Stdlib Require DecimalN.
Import ListNotations.

Open Scope N_scope.

(** ** Python strings *)

Definition pystr := list N.

(** An ASCII string literal as a Python [str]. *)
Definition s2l (s : string) : pystr := map N_of_ascii (list_ascii_of_string s).

(** ** Unicode character data used by [int()] *)

(** First code point of each run of ten decimal digits (general category
    Nd) of Unicode 15.0/15.1: the characters for which
    [Py_UNICODE_TODECIMAL] is defined. *)
Definition nd_starts : list N :=
  [0x30; 0x660; 0x6F0; 0x7C0; 0x966; 0x9E6; 0xA66; 0xAE6; 0xB66; 0xBE6;
   0xC66; 0xCE6; 0xD66; 0xDE6; 0xE50; 0xED0; 0xF20; 0x1040; 0x1090; 0x17E0;
   0x1810; 0x1946; 0x19D0; 0x1A80; 0x1A90; 0x1B50; 0x1BB0; 0x1C40; 0x1C50;
   0xA620; 0xA8D0; 0xA900; 0xA9D0; 0xA9F0; 0xAA50; 0xABF0; 0xFF10;
   0x104A0; 0x10D30; 0x11066; 0x110F0; 0x11136; 0x111D0; 0x112F0; 0x11450;
   0x114D0; 0x11650; 0x116C0; 0x11730; 0x118E0; 0x11950; 0x11C50; 0x11D50;
   0x11DA0; 0x11F50; 0x16A60; 0x16AC0; 0x16B50; 0x1D7CE; 0x1D7D8; 0x1D7E2;
   0x1D7EC; 0x1D7F6; 0x1E140; 0x1E2F0; 0x1E4F0; 0x1E950; 0x1FBF0].

(** [Py_UNICODE_TODECIMAL]: the decimal value of a code point, if any. *)
Definition unicode_decimal (c : N) : option N :=
  match find (fun st => (st <=? c) && (c <? st + 10)) nd_starts with
  | Some st => Some (c - st)
  | None => None
  end.

(** [Py_UNICODE_ISSPACE] ([str.isspace]). *)
Definition unicode_isspace (c : N) : bool :=
  ((9 <=? c) && (c <=? 13)) || ((0x1C <=? c) && (c <=? 0x20)) ||
  (c =? 0x85) || (c =? 0xA0) || (c =? 0x1680) ||
  ((0x2000 <=? c) && (c <=? 0x200A)) || (c =? 0x2028) || (c =? 0x2029) ||
  (c =? 0x202F) || (c =? 0x205F) || (c =? 0x3000).

(** [_PyUnicode_TransformDecimalAndSpaceToASCII], one character: ASCII is
    kept, other white space becomes a space, other decimal digits become
    their ASCII digit, anything else becomes ['?'] (which no parse
    accepts; CPython also truncates the buffer there). *)
Definition transform_char (c : N) : N :=
  if c <? 127 then c
  else if unicode_isspace c then 32
  else match unicode_decimal c with
       | Some d => 48 + d
       | None => 63
       end.

(** ** [PyLong_FromString] with base 10 on the transformed ASCII buffer *)

(** [Py_ISSPACE]. *)
Definition ascii_isspace (c : N) : bool := ((9 <=? c) && (c <=? 13)) || (c =? 32).
Definition ascii_isdigit (c : N) : bool := (48 <=? c) && (c <=? 57).
Definition digit_or_underscore (c : N) : bool := ascii_isdigit c || (c =? 95).

Fixpoint drop_while (p : N -> bool) (l : list N) : list N :=
  match l with
  | [] => []
  | c :: r => if p c then drop_while p r else l
  end.

Fixpoint take_while (p : N -> bool) (l : list N) : list N :=
  match l with
  | [] => []
  | c :: r => if p c then c :: take_while p r else []
  end.

(** Two underscores in a row inside the scanned digits. *)
Fixpoint double_underscore (l : list N) : bool :=
  match l with
  | a :: (b :: _) as r => ((a =? 95) && (b =? 95)) || double_underscore r
  | _ => false
  end.

Definition ends_with_underscore (l : list N) : bool :=
  match rev l with
  | c :: _ => c =? 95
  | [] => false
  end.

(** Value of the scanned digits, underscores skipped. *)
Definition digits_value (l : list N) : Z :=
  fold_left (fun acc c => if c =? 95 then acc else (10 * acc + Z.of_N (c - 48))%Z) l 0%Z.

Definition pylong_from_string (a : list N) : option Z :=
  let a1 := drop_while ascii_isspace a in
  let '(sign, a2) :=
    match a1 with
    | c :: r => if c =? 43 then (1%Z, r) else if c =? 45 then ((-1)%Z, r) else (1%Z, a1)
    | [] => (1%Z, a1)
    end in
  match a2 with
  | c :: _ =>
      if c =? 95 then None   (* may not start with an underscore *)
      else
        let body := take_while digit_or_underscore a2 in
        let rest := drop_while digit_or_underscore a2 in
        match body with
        | [] => None         (* no digits *)
        | _ =>
            if double_underscore body || ends_with_underscore body
               || negb (forallb ascii_isspace rest)
            then None
            else Some (sign * digits_value body)%Z
        end
  | [] => None
  end.

(** Python's [int(s)] on a [str]: [Some n], or [None] for the
    [ValueError] that the source catches. *)
Definition py_int (s : pystr) : option Z := pylong_from_string (map transform_char s).

(** ** Integer formatting *)

Fixpoint uint_chars (u : Decimal.uint) : pystr :=
  match u with
  | Decimal.Nil => []
  | Decimal.D0 u => 48 :: uint_chars u | Decimal.D1 u => 49 :: uint_chars u
  | Decimal.D2 u => 50 :: uint_chars u | Decimal.D3 u => 51 :: uint_chars u
  | Decimal.D4 u => 52 :: uint_chars u | Decimal.D5 u => 53 :: uint_chars u
  | Decimal.D6 u => 54 :: uint_chars u | Decimal.D7 u => 55 :: uint_chars u
  | Decimal.D8 u => 56 :: uint_chars u | Decimal.D9 u => 57 :: uint_chars u
  end.

(** [str(n)] for a Python [int]. *)
Definition py_str_int (n : Z) : pystr :=
  let ds := uint_chars (N.to_uint (Z.abs_N n)) in
  if (n <? 0)%Z then 45 :: ds else ds.

(** ["%0<width>d" % n]: sign, then zero padding up to the field width. *)
Definition pct_0d (width : nat) (n : Z) : pystr :=
  let ds := uint_chars (N.to_uint (Z.abs_N n)) in
  if (n <? 0)%Z then 45 :: (List.repeat 48 (width - 1 - List.length ds)%nat ++ ds)%list
  else (List.repeat 48 (width - List.length ds)%nat ++ ds)%list.

(** ** The [datetime.date] base type *)

Record date := mkdate { year : Z; month : Z; day : Z }.

(** Why [date(year, month, day)] refuses its arguments. *)
Inductive date_error :=
| IntOverflow        (* OverflowError: an argument does not fit a C int *)
| YearOutOfRange     (* ValueError: year %i is out of range *)
| MonthOutOfRange    (* ValueError: month must be in 1..12 *)
| DayOutOfRange.     (* ValueError: day is out of range for month *)

Definition is_leap (y : Z) : bool :=
  (Z.modulo y 4 =? 0)%Z && (negb (Z.modulo y 100 =? 0)%Z || (Z.modulo y 400 =? 0)%Z).

Definition days_in_month (y m : Z) : Z :=
  if (m =? 2)%Z then (if is_leap y then 29 else 28)%Z
  else if (m =? 4)%Z || (m =? 6)%Z || (m =? 9)%Z || (m =? 11)%Z then 30%Z
  else 31%Z.

Definition fits_c_int (n : Z) : bool := (- 2147483648 <=? n)%Z && (n <=? 2147483647)%Z.

(** The validity check of the exact-date type ([MINYEAR] = 1,
    [MAXYEAR] = 9999). *)
Definition valid_date (y m d : Z) : bool :=
  (1 <=? y)%Z && (y <=? 9999)%Z && (1 <=? m)%Z && (m <=? 12)%Z &&
  (1 <=? d)%Z && (d <=? days_in_month y m)%Z.

(** ** Errors raised by the module *)

Inductive error :=
| TypeError_ (msg : pystr)                          (* TypeError *)
| InvalidCombination (y : Z) (m d : option Z)       (* ValueError, __new__ *)
| InvalidDate (r : date_error)                      (* raised by date() *)
| NotSupported (msg : pystr)                        (* NotImplementedError *)
| InvalidLength (s : pystr)                         (* ValueError *)
| InvalidSeparator (sep : N)                        (* ValueError *)
| InconsistentMarker (s : pystr)                    (* ValueError *)
| InvalidYear (yyyy : pystr)                        (* ValueError *)
| InvalidMarker (marker : pystr).                   (* ValueError *)

Inductive result (A : Type) := Ok (a : A) | Err (e : error).
Arguments Ok {A} a.
Arguments Err {A} e.

(** [date.__new__] with three [int] arguments (C arguments of type int,
    then [check_date_args]). *)
Definition date_new (y m d : Z) : result date :=
  if negb (fits_c_int y && fits_c_int m && fits_c_int d) then Err (InvalidDate IntOverflow)
  else if (y <? 1)%Z || (9999 <? y)%Z then Err (InvalidDate YearOutOfRange)
  else if (m <? 1)%Z || (12 <? m)%Z then Err (InvalidDate MonthOutOfRange)
  else if (d <? 1)%Z || (days_in_month y m <? d)%Z then Err (InvalidDate DayOutOfRange)
  else Ok (mkdate y m d).

(** ** The [fuzzydate] class *)

(** A [fuzzydate] instance: the C [date] data plus the two slots. *)
Record fuzzydate := mkfuzzy {
  as_date : date;
  fuzzy_month : bool;   (* slot [_fuzzy_month] *)
  fuzzy_day : bool      (* slot [_fuzzy_day] *)
}.

Definition default1 (o : option Z) : Z := match o with Some v => v | None => 1%Z end.
Definition is_none {A} (o : option A) : bool := match o with None => true | Some _ => false end.

(** [fuzzydate.__new__(cls, year, month=None, day=None)]. *)
Definition fuzzydate_new (y : Z) (month_ day_ : option Z) : result fuzzydate :=
  let fm := is_none month_ in
  let fd := is_none day_ in
  if fm && negb fd then Err (InvalidCombination y month_ day_)
  else
    let m := if fm then 1%Z else default1 month_ in
    let d := if fd then 1%Z else default1 day_ in
    match date_new y m d with
    | Ok base => Ok (mkfuzzy base fm fd)
    | Err e => Err e
    end.

(** The logical values, as [__repr__] computes them. *)
Definition logical_month (fd : fuzzydate) : option Z :=
  if fuzzy_month fd then None else Some (month (as_date fd)).
Definition logical_day (fd : fuzzydate) : option Z :=
  if fuzzy_day fd then None else Some (day (as_date fd)).

Definition bind {A B} (r : result A) (k : A -> result B) : result B :=
  match r with Ok a => k a | Err e => Err e end.
Notation "'let*' x ':=' r 'in' k" := (bind r (fun x => k))
  (at level 200, x name, r at level 100, k at level 200).

(** ** Parsing: [fuzzydate.fuzzy_fromisoformat] *)

(** The argument of [fuzzy_fromisoformat]: a [str], or any other object. *)
Inductive pyval := VStr (s : pystr) | VOther.

(** [date_string[i]] (only used once the length is known to be 10). *)
Definition char_at (s : pystr) (i : nat) : N := nth i s 0.

(** [date_string[a:b]]. *)
Definition slice (s : pystr) (a b : nat) : pystr := firstn (b - a) (skipn a s).

(** The [try: day = int(dd) except ValueError: ...] block. *)
Definition parse_day_field (date_string dd : pystr) : result (option Z) :=
  match py_int dd with
  | Some n => Ok (Some n)
  | None =>
      if negb (char_at dd 0 =? char_at dd 1) then Err (InconsistentMarker date_string)
      else Ok None
  end.

(** The [try: month = int(mm) except ValueError: ...] block. *)
Definition parse_month_field (date_string mm dd : pystr) (day_ : option Z) : result (option Z) :=
  match py_int mm with
  | Some n => Ok (Some n)
  | None =>
      if negb (char_at mm 0 =? char_at mm 1)
         || (is_none day_ && negb (char_at mm 0 =? char_at dd 0))
      then Err (InconsistentMarker date_string)
      else Ok None
  end.

Definition fuzzy_fromisoformat (v : pyval) : result fuzzydate :=
  match v with
  | VOther => Err (TypeError_ (s2l "fuzzy_fromisoformat: argument must be str"))
  | VStr date_string =>
      if negb (List.length date_string =? 10)%nat then Err (InvalidLength date_string)
      else
        let sep4 := char_at date_string 4 in
        let sep7 := char_at date_string 7 in
        if negb (sep4 =? 45) then Err (InvalidSeparator sep4)
        else if negb (sep7 =? 45) then Err (InvalidSeparator sep7)
        else
          let yyyy := slice date_string 0 4 in
          let mm := slice date_string 5 7 in
          let dd := slice date_string 8 10 in
          let* day_ := parse_day_field date_string dd in
          let* month_ := parse_month_field date_string mm dd day_ in
          match py_int yyyy with
          | None => Err (InvalidYear yyyy)
          | Some y => fuzzydate_new y month_ day_
          end
  end.

(** [fuzzydate.fromisoformat]: disabled. *)
Definition fromisoformat (v : pyval) : result fuzzydate :=
  Err (NotSupported
    (s2l "`fromisoformat` is not supported for fuzzy dates; use `fuzzy_fromisoformat` instead")).

(** [fuzzydate.isoformat]: disabled. *)
Definition isoformat (fd : fuzzydate) : result pystr :=
  Err (NotSupported
    (s2l "`isoformat` is not supported for fuzzy dates; use `fuzzy_isoformat` instead")).

(** ** Formatting: [fuzzy_isoformat], [__str__], [__repr__] *)

Fixpoint prefixb (p s : pystr) : bool :=
  match p, s with
  | [], _ => true
  | a :: p', b :: s' => (a =? b) && prefixb p' s'
  | _ :: _, [] => false
  end.

(** Python's [needle in hay] on two [str]s. *)
Fixpoint str_contains (hay needle : pystr) : bool :=
  prefixb needle hay || match hay with [] => false | _ :: h => str_contains h needle end.

(** [string.digits]. *)
Definition string_digits : pystr := s2l "0123456789".

Definition fuzzy_isoformat (fd : fuzzydate) (marker : pystr) : result pystr :=
  if negb (List.length marker =? 1)%nat || str_contains string_digits marker
  then Err (InvalidMarker marker)
  else
    let yyyy := pct_0d 4 (year (as_date fd)) in
    let mm := if fuzzy_month fd then (marker ++ marker)%list else pct_0d 2 (month (as_date fd)) in
    let dd := if fuzzy_day fd then (marker ++ marker)%list else pct_0d 2 (day (as_date fd)) in
    Ok (yyyy ++ [45] ++ mm ++ [45] ++ dd)%list.

(** [__str__ = fuzzy_isoformat], called with its default marker ['?']. *)
Definition py_str (fd : fuzzydate) : result pystr := fuzzy_isoformat fd (s2l "?").

(** An f-string field holding [None] or an [int]. *)
Definition fmt_field (o : option Z) : pystr :=
  match o with None => s2l "None" | Some n => py_str_int n end.

(** [__repr__]; [self.__class__.__qualname__] is ["fuzzydate"]. *)
Definition py_repr (fd : fuzzydate) : pystr :=
  (s2l "fuzzydate(" ++ py_str_int (year (as_date fd)) ++ s2l ", "
   ++ fmt_field (logical_month fd) ++ s2l ", " ++ fmt_field (logical_day fd) ++ s2l ")")%list.

(** ** Inherited comparison and hashing ([date_richcompare], [date_hash]) *)

(** A [date] or [fuzzydate] object. *)
Inductive dateobj := PlainDate (d : date) | Fuzzy (fd : fuzzydate).

Definition date_data (o : dateobj) : date :=
  match o with PlainDate d => d | Fuzzy fd => as_date fd end.

(** The four bytes [data] of the C struct: year (big endian), month, day. *)
Definition data_bytes (d : date) : list Z :=
  [Z.div (year d) 256; Z.modulo (year d) 256; month d; day d].

Fixpoint memcmp (a b : list Z) : comparison :=
  match a, b with
  | x :: a', y :: b' => match Z.compare x y with Eq => memcmp a' b' | c => c end
  | _, _ => Eq
  end.

Inductive cmp_op := Py_LT | Py_LE | Py_EQ | Py_NE | Py_GT | Py_GE.

Definition diff_to_bool (c : comparison) (op : cmp_op) : bool :=
  match op, c with
  | Py_EQ, Eq | Py_NE, (Lt | Gt) | Py_LT, Lt | Py_GT, Gt
  | Py_LE, (Lt | Eq) | Py_GE, (Gt | Eq) => true
  | _, _ => false
  end.

Definition date_richcompare (op : cmp_op) (a b : dateobj) : bool :=
  diff_to_bool (memcmp (data_bytes (date_data a)) (data_bytes (date_data b))) op.

(** [date_hash]: [generic_hash] (SipHash with a per-process key) of the
    data bytes; the hash function is left as a parameter. *)
Definition date_hash (generic_hash : list Z -> Z) (o : dateobj) : Z :=
  generic_hash (data_bytes (date_data o)).

(** How an instance comes into being: the constructor or the parser. *)
Inductive origin := FromNew (y : Z) (m d : option Z) | FromIso (v : pyval).

Definition create (o : origin) : result fuzzydate :=
  match o with
  | FromNew y m d => fuzzydate_new y m d
  | FromIso v => fuzzy_fromisoformat v
  end.

(** ** The parse as the specification orders its checks

    A second reading of [fuzzy_fromisoformat], written from the
    specification's list of steps: every check is computed on its own, the
    first failing one gives the error, and when none fails the constructor
    runs on the parsed fields. *)

Fixpoint first_failure (checks : list (option error)) : option error :=
  match checks with
  | [] => None
  | Some e :: _ => Some e
  | None :: r => first_failure r
  end.

Definition fuzzy_fromisoformat_spec_order (v : pyval) : result fuzzydate :=
  match v with
  | VOther => Err (TypeError_ (s2l "fuzzy_fromisoformat: argument must be str"))
  | VStr s =>
      let yyyy := slice s 0 4 in
      let mm := slice s 5 7 in
      let dd := slice s 8 10 in
      let day_absent := is_none (py_int dd) in
      let checks :=
        [ if negb (List.length s =? 10)%nat then Some (InvalidLength s) else None;
          if negb (char_at s 4 =? 45) then Some (InvalidSeparator (char_at s 4)) else None;
          if negb (char_at s 7 =? 45) then Some (InvalidSeparator (char_at s 7)) else None;
          if day_absent && negb (char_at dd 0 =? char_at dd 1)
          then Some (InconsistentMarker s) else None;
          if is_none (py_int mm) &&
             (negb (char_at mm 0 =? char_at mm 1) ||
              (day_absent && negb (char_at mm 0 =? char_at dd 0)))
          then Some (InconsistentMarker s) else None;
          if is_none (py_int yyyy) then Some (InvalidYear yyyy) else None ] in
      match first_failure checks, py_int yyyy with
      | Some e, _ => Err e
      | None, Some y => fuzzydate_new y (py_int mm) (py_int dd)
      | None, None => Err (InvalidYear yyyy)
      end
  end.

(** ** The class invariant *)

Definition fuzzy_invariant (fd : fuzzydate) : Prop :=
  (fuzzy_month fd = true -> fuzzy_day fd = true) /\
  (fuzzy_month fd = true -> month (as_date fd) = 1%Z) /\
  (fuzzy_day fd = true -> day (as_date fd) = 1%Z) /\
  valid_date (year (as_date fd)) (month (as_date fd)) (day (as_date fd)) = true.

(** ** Chronological order of exact dates

    Written from the calendar, not from the source: year first, then
    month, then day. *)
Definition chrono_compare (a b : date) : comparison :=
  match Z.compare (year a) (year b) with
  | Eq => match Z.compare (month a) (month b) with
          | Eq => Z.compare (day a) (day b)
          | c => c
          end
  | c => c
  end.

(** ** Executable checks of the embedding against the test suite *)

Example test_fromiso_fuzzy_day :
  fuzzy_fromisoformat (VStr (s2l "2020-06-??")) = fuzzydate_new 2020 (Some 6%Z) None.
Proof. reflexivity. Qed.

Example test_fromiso_fuzzy_month :
  fuzzy_fromisoformat (VStr (s2l "2020-??-??")) = fuzzydate_new 2020 None None.
Proof. reflexivity. Qed.

Example test_fromiso_mismatched_day :
  fuzzy_fromisoformat (VStr (s2l "2020-06-?#")) = Err (InconsistentMarker (s2l "2020-06-?#")).
Proof. reflexivity. Qed.

Example test_int_python_forms :
  (py_int (s2l " +1_0 "), py_int (s2l "1__0"), py_int (s2l "_1"), py_int (s2l "-07"))
  = (Some 10%Z, None, None, Some (-7)%Z).
Proof. reflexivity. Qed.

(** * Lemmas about the embedding *)

Section Lemmas.

Lemma date_new_ok y m d b :
  date_new y m d = Ok b -> b = mkdate y m d /\ valid_date y m d = true.
Proof.
  unfold date_new, valid_date.
  destruct (negb _); [discriminate|].
  destruct ((y <? 1)%Z || (9999 <? y)%Z) eqn:Hy; [discriminate|].
  destruct ((m <? 1)%Z || (12 <? m)%Z) eqn:Hm; [discriminate|].
  destruct ((d <? 1)%Z || (days_in_month y m <? d)%Z) eqn:Hd; [discriminate|].
  intro H; inversion H; subst; split; [reflexivity|].
  apply Bool.orb_false_iff in Hy, Hm, Hd.
  destruct Hy as [Hy1 Hy2], Hm as [Hm1 Hm2], Hd as [Hd1 Hd2].
  apply Z.ltb_ge in Hy1, Hy2, Hm1, Hm2, Hd1, Hd2.
  repeat rewrite Bool.andb_true_iff. rewrite !Z.leb_le. lia.
Qed.

Lemma date_new_valid y m d :
  valid_date y m d = true -> date_new y m d = Ok (mkdate y m d).
Proof.
  unfold date_new, valid_date, fits_c_int.
  rewrite !Bool.andb_true_iff, !Z.leb_le. intros.
  assert (days_in_month y m <= 31)%Z by
    (unfold days_in_month; repeat destruct (_ =? _)%Z; destruct (is_leap y); simpl; lia).
  repeat match goal with
         | |- context [(?a <=? ?b)%Z] => replace (a <=? b)%Z with true by (symmetry; apply Z.leb_le; lia)
         | |- context [(?a <? ?b)%Z] => replace (a <? b)%Z with false by (symmetry; apply Z.ltb_ge; lia)
         end; reflexivity.
Qed.

Lemma date_new_invalid y m d :
  valid_date y m d = false -> exists r, date_new y m d = Err (InvalidDate r).
Proof.
  intro H. destruct (date_new y m d) as [b|e] eqn:E.
  - apply date_new_ok in E. destruct E as [_ E]. congruence.
  - revert E; unfold date_new;
      repeat match goal with
             | |- context [if ?c then _ else _] => destruct c
             end; intro E; inversion E; eauto.
Qed.

Lemma days_in_month_le y m : (days_in_month y m <= 31)%Z.
Proof. unfold days_in_month; repeat destruct (_ =? _)%Z; destruct (is_leap y); simpl; lia. Qed.

Lemma fuzzydate_new_shape y m d fd :
  fuzzydate_new y m d = Ok fd ->
  (is_none m = true -> is_none d = true) /\
  fd = mkfuzzy (mkdate y (default1 m) (default1 d)) (is_none m) (is_none d) /\
  valid_date y (default1 m) (default1 d) = true.
Proof.
  unfold fuzzydate_new.
  destruct m as [mv|], d as [dv|]; simpl; try discriminate;
    destruct (date_new _ _ _) as [b|e] eqn:E; try discriminate;
    intro H; inversion H; subst; apply date_new_ok in E; destruct E; subst; auto.
Qed.

(** ** Zero-padded fields read back by [int()] *)

Definition pct_reads_back (w : nat) (n : Z) : bool :=
  (List.length (pct_0d w n) =? w)%nat &&
  match py_int (pct_0d w n) with Some k => (k =? n)%Z | None => false end.

Lemma range_check (f : Z -> bool) (lo len : Z) :
  forallb f (map Z.of_nat (seq (Z.to_nat lo) (Z.to_nat len))) = true ->
  forall n, (0 <= lo <= n)%Z -> (n < lo + len)%Z -> f n = true.
Proof.
  intros H n Hlo Hhi. rewrite forallb_forall in H. apply H.
  apply in_map_iff. exists (Z.to_nat n). split; [lia|].
  apply in_seq. lia.
Qed.

Lemma pct4_reads_back n : (1 <= n <= 9999)%Z -> pct_reads_back 4 n = true.
Proof.
  intro Hn. apply (range_check (pct_reads_back 4) 1 9999); [vm_compute; reflexivity | lia | lia].
Qed.

Lemma pct2_reads_back n : (1 <= n <= 31)%Z -> pct_reads_back 2 n = true.
Proof.
  intro Hn. apply (range_check (pct_reads_back 2) 1 31); [vm_compute; reflexivity | lia | lia].
Qed.

Lemma pct_reads_back_spec w n :
  pct_reads_back w n = true ->
  List.length (pct_0d w n) = w /\ py_int (pct_0d w n) = Some n.
Proof.
  unfold pct_reads_back. rewrite Bool.andb_true_iff, Nat.eqb_eq. intros [H1 H2].
  split; [assumption|]. destruct (py_int _); [|discriminate].
  apply Z.eqb_eq in H2; subst; reflexivity.
Qed.

Lemma list4 {A} (l : list A) : List.length l = 4%nat -> exists a b c d, l = [a; b; c; d].
Proof. destruct l as [|a [|b [|c [|d [|]]]]]; simpl; try discriminate; eauto 6. Qed.

Lemma list2 {A} (l : list A) : List.length l = 2%nat -> exists a b, l = [a; b].
Proof. destruct l as [|a [|b [|]]]; simpl; try discriminate; eauto. Qed.

(** ** A doubled non-digit marker is not an integer *)

Lemma unicode_decimal_ascii c : ascii_isdigit c = true -> unicode_decimal c = Some (c - 48).
Proof.
  unfold ascii_isdigit, unicode_decimal. rewrite Bool.andb_true_iff, !N.leb_le.
  intros [H1 H2]. simpl.
  replace (48 <=? c) with true by (symmetry; apply N.leb_le; lia).
  replace (c <? 58) with true by (symmetry; apply N.ltb_lt; lia). reflexivity.
Qed.

Lemma transform_not_digit c :
  unicode_decimal c = None -> ascii_isdigit (transform_char c) = false.
Proof.
  intro H. unfold transform_char.
  destruct (c <? 127).
  - destruct (ascii_isdigit c) eqn:E; [|reflexivity].
    rewrite (unicode_decimal_ascii c E) in H. discriminate.
  - destruct (unicode_isspace c); [reflexivity|]. rewrite H. reflexivity.
Qed.

Lemma pylong_doubled_non_digit t :
  ascii_isdigit t = false -> pylong_from_string [t; t] = None.
Proof.
  intro Ht. unfold pylong_from_string. simpl.
  destruct (ascii_isspace t) eqn:Hs; [reflexivity|].
  destruct (t =? 43) eqn:H43; [apply N.eqb_eq in H43; subst; reflexivity|].
  destruct (t =? 45) eqn:H45; [apply N.eqb_eq in H45; subst; reflexivity|].
  destruct (t =? 95) eqn:H95; [reflexivity|].
  assert (Hd : digit_or_underscore t = false) by (unfold digit_or_underscore; rewrite Ht, H95; reflexivity).
  simpl take_while. rewrite Hd. reflexivity.
Qed.

Lemma doubled_marker_not_int c : unicode_decimal c = None -> py_int [c; c] = None.
Proof.
  intro H. unfold py_int. simpl. apply pylong_doubled_non_digit, transform_not_digit, H.
Qed.

Lemma marker_check_non_digit c :
  unicode_decimal c = None -> str_contains string_digits [c] = false.
Proof.
  intro H. destruct (str_contains string_digits [c]) eqn:E; [|reflexivity].
  exfalso. simpl in E. rewrite !Bool.andb_true_r in E.
  assert (Hd : ascii_isdigit c = true).
  { unfold ascii_isdigit. rewrite Bool.andb_true_iff, !N.leb_le.
    repeat (apply Bool.orb_true_iff in E; destruct E as [E|E]; [apply N.eqb_eq in E; lia|]).
    discriminate. }
  rewrite (unicode_decimal_ascii c Hd) in H. discriminate.
Qed.

(** The parser on a string of the right shape: length 10, dashes at 4 and 7. *)
Lemma fromiso_shape a0 a1 a2 a3 m0 m1 d0 d1 :
  fuzzy_fromisoformat (VStr [a0; a1; a2; a3; 45; m0; m1; 45; d0; d1]) =
  let s := [a0; a1; a2; a3; 45; m0; m1; 45; d0; d1] in
  let* day_ := parse_day_field s [d0; d1] in
  let* month_ := parse_month_field s [m0; m1] [d0; d1] day_ in
  match py_int [a0; a1; a2; a3] with
  | None => Err (InvalidYear [a0; a1; a2; a3])
  | Some y => fuzzydate_new y month_ day_
  end.
Proof. reflexivity. Qed.

Lemma list10 {A} (l : list A) :
  List.length l = 10%nat -> exists a0 a1 a2 a3 a4 a5 a6 a7 a8 a9,
  l = [a0; a1; a2; a3; a4; a5; a6; a7; a8; a9].
Proof.
  do 10 (destruct l as [|? l]; [discriminate|]).
  destruct l; [|discriminate]. eauto 11.
Qed.

Lemma fuzzydate_new_not_marker y m d s :
  fuzzydate_new y m d <> Err (InconsistentMarker s).
Proof.
  unfold fuzzydate_new, date_new.
  repeat match goal with
         | |- context [if ?c then _ else _] => destruct c
         end; discriminate.
Qed.

Lemma fromiso_via_new v fd :
  fuzzy_fromisoformat v = Ok fd -> exists y m d, fuzzydate_new y m d = Ok fd.
Proof.
  destruct v as [s|]; [|discriminate]. unfold fuzzy_fromisoformat, bind.
  repeat match goal with
         | |- context [match ?x with _ => _ end] =>
             lazymatch x with fuzzydate_new _ _ _ => fail | _ => destruct x end
         | |- context [if ?c then _ else _] => destruct c
         end; try discriminate; eauto.
Qed.

End Lemmas.

(** * Claims *)

(** ** C1: [fuzzy_isoformat] then [fuzzy_fromisoformat] gives the instance back

    C1. For every instance built by the constructor and every marker
    made of one character that is not a decimal digit, [fuzzy_isoformat]
    succeeds and parsing its output returns the same instance: same year,
    same fuzzy flags, same month and day. *)
Theorem fuzzy_isoformat_roundtrip (y : Z) (m d : option Z) (fd : fuzzydate) (c : N)
  (Hnew : fuzzydate_new y m d = Ok fd) (Hc : unicode_decimal c = None) :
  exists s, fuzzy_isoformat fd [c] = Ok s /\ fuzzy_fromisoformat (VStr s) = Ok fd.
Proof.
  pose proof Hnew as Hn. apply fuzzydate_new_shape in Hn.
  destruct Hn as [Hcomb [-> Hv]].
  unfold valid_date in Hv. rewrite !Bool.andb_true_iff, !Z.leb_le in Hv.
  pose proof (days_in_month_le y (default1 m)) as Hdim.
  destruct (pct_reads_back_spec 4 y (pct4_reads_back y ltac:(lia))) as [Ly Py].
  destruct (list4 _ Ly) as (a0 & a1 & a2 & a3 & Ey). rewrite Ey in Py.
  pose proof (doubled_marker_not_int c Hc) as Pc.
  unfold fuzzy_isoformat. rewrite (marker_check_non_digit c Hc).
  cbn [as_date year month day fuzzy_month fuzzy_day List.length Nat.eqb negb orb].
  rewrite Ey.
  destruct m as [mv|], d as [dv|]; cbn [is_none default1] in *.
  - destruct (pct_reads_back_spec 2 mv (pct2_reads_back mv ltac:(lia))) as [Lm Pm].
    destruct (pct_reads_back_spec 2 dv (pct2_reads_back dv ltac:(lia))) as [Ld Pd].
    destruct (list2 _ Lm) as (m0 & m1 & Em). destruct (list2 _ Ld) as (d0 & d1 & Ed).
    rewrite Em, Ed in *. eexists; split; [reflexivity|].
    cbn [app]. rewrite fromiso_shape. unfold parse_day_field, parse_month_field.
    rewrite Pd, Pm, Py. exact Hnew.
  - destruct (pct_reads_back_spec 2 mv (pct2_reads_back mv ltac:(lia))) as [Lm Pm].
    destruct (list2 _ Lm) as (m0 & m1 & Em). rewrite Em in *.
    eexists; split; [reflexivity|].
    cbn [app]. rewrite fromiso_shape. unfold parse_day_field, parse_month_field.
    rewrite Pc, Pm, Py. unfold char_at; cbn [nth]. rewrite N.eqb_refl. exact Hnew.
  - discriminate (Hcomb eq_refl).
  - eexists; split; [reflexivity|].
    cbn [app]. rewrite fromiso_shape. unfold parse_day_field, parse_month_field.
    rewrite Pc. unfold char_at; cbn [nth]. rewrite N.eqb_refl. cbn [negb bind].
    cbn [is_none andb orb bind]. rewrite Py. exact Hnew.
Qed.

Lemma fuzzy_isoformat_roundtrip_witness :
  fuzzydate_new 2020 (Some 6%Z) None = Ok (mkfuzzy (mkdate 2020 6 1) false true) /\
  unicode_decimal 37 = None /\
  exists s, fuzzy_isoformat (mkfuzzy (mkdate 2020 6 1) false true) [37] = Ok s /\
            fuzzy_fromisoformat (VStr s) = Ok (mkfuzzy (mkdate 2020 6 1) false true).
Proof.
  split; [reflexivity|]. split; [reflexivity|].
  apply (fuzzy_isoformat_roundtrip 2020 (Some 6%Z) None); reflexivity.
Defined.

(** ** C2: the constructor

    C2. A month absent with a day present fails with
    [InvalidCombination], echoing the triple.  Otherwise, when the triple
    with absent fields read as 1 is a valid date the constructor succeeds
    and its logical values (year, month or absent, day or absent, fuzzy
    flags) are the arguments; when it is not, it fails with [InvalidDate]. *)
Theorem fuzzydate_new_spec (y : Z) (m d : option Z) :
  match m, d with
  | None, Some _ => fuzzydate_new y m d = Err (InvalidCombination y m d)
  | _, _ =>
      if valid_date y (default1 m) (default1 d) then
        exists fd, fuzzydate_new y m d = Ok fd /\ year (as_date fd) = y /\
          logical_month fd = m /\ logical_day fd = d /\
          fuzzy_month fd = is_none m /\ fuzzy_day fd = is_none d
      else exists r, fuzzydate_new y m d = Err (InvalidDate r)
  end.
Proof.
  destruct m as [mv|], d as [dv|]; try reflexivity;
    unfold fuzzydate_new; cbn [is_none default1 negb andb];
    destruct (valid_date _ _ _) eqn:V;
    solve [ rewrite (date_new_valid _ _ _ V); eexists; repeat split
          | destruct (date_new_invalid _ _ _ V) as [r Hr]; rewrite Hr; eauto ].
Qed.

(** ** C3: the order of the parser's checks

    C3. [fuzzy_fromisoformat] is the first-failing-check-wins
    sequence of the specification: TypeError, InvalidLength,
    InvalidSeparator at index 4 then 7, the day marker check, the month
    marker check, InvalidYear, then the constructor's own errors; and
    ["????-06-27"] fails with [InvalidYear]. *)
Theorem fuzzy_fromisoformat_check_order :
  (forall v, fuzzy_fromisoformat v = fuzzy_fromisoformat_spec_order v) /\
  fuzzy_fromisoformat (VStr (s2l "????-06-27")) = Err (InvalidYear (s2l "????")).
Proof.
  split; [|reflexivity].
  intros [s|]; [|reflexivity].
  destruct (List.length s =? 10)%nat eqn:L.
  - apply Nat.eqb_eq, list10 in L.
    destruct L as (a0 & a1 & a2 & a3 & a4 & a5 & a6 & a7 & a8 & a9 & ->).
    unfold fuzzy_fromisoformat, fuzzy_fromisoformat_spec_order,
      parse_day_field, parse_month_field.
    cbn [List.length Nat.eqb negb char_at slice nth firstn skipn Nat.sub].
    destruct (a4 =? 45); cbn [negb first_failure]; [|reflexivity].
    destruct (a7 =? 45); cbn [negb first_failure]; [|reflexivity].
    destruct (py_int [a8; a9]); cbn [is_none andb orb bind first_failure].
    + destruct (py_int [a5; a6]); cbn [is_none andb orb bind first_failure].
      * destruct (py_int [a0; a1; a2; a3]); reflexivity.
      * destruct (a5 =? a6); cbn [negb orb first_failure bind];
          [|reflexivity].
        destruct (py_int [a0; a1; a2; a3]); reflexivity.
    + destruct (a8 =? a9); cbn [negb first_failure bind]; [|reflexivity].
      destruct (py_int [a5; a6]); cbn [is_none andb orb bind first_failure].
      * destruct (py_int [a0; a1; a2; a3]); reflexivity.
      * destruct (a5 =? a6), (a5 =? a8); cbn [negb orb first_failure bind];
          try reflexivity.
        destruct (py_int [a0; a1; a2; a3]); reflexivity.
  - unfold fuzzy_fromisoformat, fuzzy_fromisoformat_spec_order.
    rewrite L. reflexivity.
Qed.

(** ** C4: when a marker is inconsistent

    C4. On a string that passes the length and separator checks,
    [fuzzy_fromisoformat] fails with [InconsistentMarker] exactly when the
    day field is not an integer and its two characters differ, or the month
    field is not an integer and either its two characters differ or the
    day field is also not an integer and the month's marker differs from
    the day's.  So ["2020-##-??"] fails with [InconsistentMarker] and
    ["2020-##-27"] passes the marker checks and fails in the constructor. *)
Theorem inconsistent_marker_iff (a0 a1 a2 a3 m0 m1 d0 d1 : N) :
  (fuzzy_fromisoformat (VStr [a0; a1; a2; a3; 45; m0; m1; 45; d0; d1])
     = Err (InconsistentMarker [a0; a1; a2; a3; 45; m0; m1; 45; d0; d1]) <->
   (py_int [d0; d1] = None /\ d0 <> d1) \/
   (py_int [m0; m1] = None /\ (m0 <> m1 \/ (py_int [d0; d1] = None /\ m0 <> d0)))) /\
  fuzzy_fromisoformat (VStr (s2l "2020-##-??")) = Err (InconsistentMarker (s2l "2020-##-??")) /\
  fuzzy_fromisoformat (VStr (s2l "2020-##-27")) = Err (InvalidCombination 2020 None (Some 27%Z)).
Proof.
  split; [|split; reflexivity].
  rewrite fromiso_shape. unfold parse_day_field, parse_month_field, char_at.
  cbn [nth].
  destruct (py_int [d0; d1]) as [dv|] eqn:Hd; cbn [is_none andb orb bind negb].
  - destruct (py_int [m0; m1]) as [mv|] eqn:Hm; cbn [bind].
    + destruct (py_int [a0; a1; a2; a3]).
      * split; [intro H; exfalso; eapply fuzzydate_new_not_marker; exact H|].
        intros [[H _]|[H _]]; discriminate.
      * split; [discriminate|]. intros [[H _]|[H _]]; discriminate.
    + destruct (N.eqb_spec m0 m1); cbn [negb orb bind].
      * destruct (py_int [a0; a1; a2; a3]).
        -- split; [intro H; exfalso; eapply fuzzydate_new_not_marker; exact H|].
           intros [[H _]|[_ [H|[H _]]]]; congruence.
        -- split; [discriminate|]. intros [[H _]|[_ [H|[H _]]]]; congruence.
      * split; [intros _; right; auto | intros _; reflexivity].
  - destruct (N.eqb_spec d0 d1); cbn [negb bind].
    + destruct (py_int [m0; m1]) as [mv|] eqn:Hm; cbn [bind].
      * destruct (py_int [a0; a1; a2; a3]).
        -- split; [intro H; exfalso; eapply fuzzydate_new_not_marker; exact H|].
           intros [[_ H]|[H _]]; congruence.
        -- split; [discriminate|]. intros [[_ H]|[H _]]; congruence.
      * destruct (N.eqb_spec m0 m1), (N.eqb_spec m0 d0); cbn [negb orb bind].
        -- destruct (py_int [a0; a1; a2; a3]).
           ++ split; [intro H; exfalso; eapply fuzzydate_new_not_marker; exact H|].
              intros [[_ H]|[_ [H|[_ H]]]]; congruence.
           ++ split; [discriminate|]. intros [[_ H]|[_ [H|[_ H]]]]; congruence.
        -- split; [intros _; right; auto | intros _; reflexivity].
        -- split; [intros _; right; auto | intros _; reflexivity].
        -- split; [intros _; right; auto | intros _; reflexivity].
    + split; [intros _; left; auto | intros _; reflexivity].
Qed.

(** ** C5: the invariant of every instance

    C5. An instance made by the constructor or by
    [fuzzy_fromisoformat] has: fuzzy month implies fuzzy day, a fuzzy
    month stored as 1, a fuzzy day stored as 1, and a stored triple that
    is a valid date.  (The methods of the class are functions of the
    instance: none of them writes a field.) *)
Theorem created_invariant (o : origin) (fd : fuzzydate) (H : create o = Ok fd) :
  fuzzy_invariant fd.
Proof.
  assert (Hn : exists y m d, fuzzydate_new y m d = Ok fd).
  { destruct o as [y m d|v]; [eauto | apply (fromiso_via_new v), H]. }
  destruct Hn as (y & m & d & Hn).
  apply fuzzydate_new_shape in Hn. destruct Hn as [Hc [-> Hv]].
  unfold fuzzy_invariant; cbn [as_date fuzzy_month fuzzy_day year month day].
  repeat split; [exact Hc | | | exact Hv];
    destruct m, d; cbn [is_none default1]; congruence.
Qed.

Lemma created_invariant_witness :
  create (FromIso (VStr (s2l "2020-06-??")))
    = Ok (mkfuzzy (mkdate 2020 6 1) false true) /\
  fuzzy_invariant (mkfuzzy (mkdate 2020 6 1) false true).
Proof.
  split; [reflexivity|].
  apply (created_invariant (FromIso (VStr (s2l "2020-06-??")))); reflexivity.
Defined.

(** ** C6: the exact ISO entry points are disabled

    C6. [fromisoformat] fails with [NotSupported] on every input and
    [isoformat] on every instance, with a message naming
    [fuzzy_fromisoformat], respectively [fuzzy_isoformat], as the method
    to use instead. *)
Theorem iso_entry_points_disabled :
  (forall v, exists msg, fromisoformat v = Err (NotSupported msg) /\
     str_contains msg (s2l "use `fuzzy_fromisoformat` instead") = true) /\
  (forall fd, exists msg, isoformat fd = Err (NotSupported msg) /\
     str_contains msg (s2l "use `fuzzy_isoformat` instead") = true).
Proof.
  split; intros; eexists; (split; [reflexivity | vm_compute; reflexivity]).
Qed.

(** ** C7: [fuzzy_isoformat] lets a non-ASCII decimal digit through

    C7. The marker check tests membership in [string.digits] only:
    U+0661 ARABIC-INDIC DIGIT ONE, a decimal digit, is accepted as a
    marker; the string produced reads back through [int()] as the number
    11, so parsing it gives a day of 11 instead of a fuzzy day. *)
Theorem fuzzy_isoformat_accepts_unicode_digit :
  unicode_decimal 0x661 = Some 1 /\
  fuzzy_isoformat (mkfuzzy (mkdate 2020 6 1) false true) [0x661]
    = Ok (s2l "2020-06-" ++ [0x661; 0x661])%list /\
  fuzzy_fromisoformat (VStr (s2l "2020-06-" ++ [0x661; 0x661])%list)
    = fuzzydate_new 2020 (Some 6%Z) (Some 11%Z).
Proof. split; [|split]; vm_compute; reflexivity. Qed.

(** ** C8: [__str__]

    C8. [str()] of an instance is [fuzzy_isoformat] with the marker
    ['?']; for the instance built from (2020, 6, absent) it is
    ["2020-06-??"]. *)
Theorem str_is_fuzzy_isoformat :
  (forall fd, py_str fd = fuzzy_isoformat fd (s2l "?")) /\
  exists fd, fuzzydate_new 2020 (Some 6%Z) None = Ok fd /\
             py_str fd = Ok (s2l "2020-06-??").
Proof. split; [reflexivity|]. eexists; split; reflexivity. Qed.

(** ** C9: [__repr__]

    C9. [repr()] of an instance is the type name followed by the
    year and the logical month and day, a fuzzy field shown as [None]
    rather than its stored 1; the instance built from (2020, 6, absent)
    gives ["fuzzydate(2020, 6, None)"]. *)
Theorem repr_shows_logical_fields :
  (forall fd, py_repr fd =
     (s2l "fuzzydate(" ++ py_str_int (year (as_date fd)) ++ s2l ", "
      ++ (if fuzzy_month fd then s2l "None" else py_str_int (month (as_date fd)))
      ++ s2l ", "
      ++ (if fuzzy_day fd then s2l "None" else py_str_int (day (as_date fd)))
      ++ s2l ")")%list) /\
  exists fd, fuzzydate_new 2020 (Some 6%Z) None = Ok fd /\
             py_repr fd = s2l "fuzzydate(2020, 6, None)".
Proof.
  split.
  - intros [b [|] [|]]; reflexivity.
  - eexists; split; reflexivity.
Qed.

(** ** C10: inherited equality, ordering and hashing

    C10. Comparison and hashing only read the stored date: a
    [fuzzydate] compares and hashes as its stored [date], whatever its
    flags.  The instance built from (2020, 6, absent) is equal to the one
    built from (2020, 6, 1) and to the plain date 2020-06-01, and hashes
    like them, although logical day, [str()] and [repr()] differ. *)
Theorem comparisons_ignore_flags :
  (forall op fd b, date_richcompare op (Fuzzy fd) b
                   = date_richcompare op (PlainDate (as_date fd)) b) /\
  (forall op a fd, date_richcompare op a (Fuzzy fd)
                   = date_richcompare op a (PlainDate (as_date fd))) /\
  (forall h fd, date_hash h (Fuzzy fd) = date_hash h (PlainDate (as_date fd))) /\
  exists f1 f2,
    fuzzydate_new 2020 (Some 6%Z) None = Ok f1 /\
    fuzzydate_new 2020 (Some 6%Z) (Some 1%Z) = Ok f2 /\
    date_richcompare Py_EQ (Fuzzy f1) (Fuzzy f2) = true /\
    date_richcompare Py_EQ (Fuzzy f1) (PlainDate (mkdate 2020 6 1)) = true /\
    date_richcompare Py_LT (Fuzzy f1) (Fuzzy f2) = false /\
    date_richcompare Py_GT (Fuzzy f1) (Fuzzy f2) = false /\
    (forall h, date_hash h (Fuzzy f1) = date_hash h (Fuzzy f2)) /\
    logical_day f1 <> logical_day f2 /\
    py_str f1 <> py_str f2 /\ py_repr f1 <> py_repr f2.
Proof.
  split; [reflexivity|]. split; [reflexivity|]. split; [reflexivity|].
  do 2 eexists. repeat split; try reflexivity; vm_compute; discriminate.
Qed.

(** * Further properties of the module *)

Section Further.

(** The C1 round trip, as a lemma for the properties below. *)
Lemma isoformat_parse_back (y : Z) (m d : option Z) (fd : fuzzydate) (c : N)
  (Hnew : fuzzydate_new y m d = Ok fd) (Hc : unicode_decimal c = None) :
  exists s, fuzzy_isoformat fd [c] = Ok s /\ fuzzy_fromisoformat (VStr s) = Ok fd.
Proof.
  pose proof Hnew as Hn. apply fuzzydate_new_shape in Hn.
  destruct Hn as [Hcomb [-> Hv]].
  unfold valid_date in Hv. rewrite !Bool.andb_true_iff, !Z.leb_le in Hv.
  pose proof (days_in_month_le y (default1 m)) as Hdim.
  destruct (pct_reads_back_spec 4 y (pct4_reads_back y ltac:(lia))) as [Ly Py].
  destruct (list4 _ Ly) as (a0 & a1 & a2 & a3 & Ey). rewrite Ey in Py.
  pose proof (doubled_marker_not_int c Hc) as Pc.
  unfold fuzzy_isoformat. rewrite (marker_check_non_digit c Hc).
  cbn [as_date year month day fuzzy_month fuzzy_day List.length Nat.eqb negb orb].
  rewrite Ey.
  destruct m as [mv|], d as [dv|]; cbn [is_none default1] in *.
  - destruct (pct_reads_back_spec 2 mv (pct2_reads_back mv ltac:(lia))) as [Lm Pm].
    destruct (pct_reads_back_spec 2 dv (pct2_reads_back dv ltac:(lia))) as [Ld Pd].
    destruct (list2 _ Lm) as (m0 & m1 & Em). destruct (list2 _ Ld) as (d0 & d1 & Ed).
    rewrite Em, Ed in *. eexists; split; [reflexivity|].
    cbn [app]. rewrite fromiso_shape. unfold parse_day_field, parse_month_field.
    rewrite Pd, Pm, Py. exact Hnew.
  - destruct (pct_reads_back_spec 2 mv (pct2_reads_back mv ltac:(lia))) as [Lm Pm].
    destruct (list2 _ Lm) as (m0 & m1 & Em). rewrite Em in *.
    eexists; split; [reflexivity|].
    cbn [app]. rewrite fromiso_shape. unfold parse_day_field, parse_month_field.
    rewrite Pc, Pm, Py. unfold char_at; cbn [nth]. rewrite N.eqb_refl. exact Hnew.
  - discriminate (Hcomb eq_refl).
  - eexists; split; [reflexivity|].
    cbn [app]. rewrite fromiso_shape. unfold parse_day_field, parse_month_field.
    rewrite Pc. unfold char_at; cbn [nth]. rewrite N.eqb_refl. cbn [negb bind].
    cbn [is_none andb orb bind]. rewrite Py. exact Hnew.
Qed.

Lemma str_contains_digits_single c :
  str_contains string_digits [c] = ascii_isdigit c.
Proof.
  unfold ascii_isdigit. cbn. rewrite !Bool.andb_true_r.
  destruct ((48 <=? c) && (c <=? 57)) eqn:E.
  - apply Bool.andb_true_iff in E. destruct E as [E1 E2].
    apply N.leb_le in E1, E2.
    assert (c = 48 \/ c = 49 \/ c = 50 \/ c = 51 \/ c = 52 \/ c = 53 \/ c = 54
            \/ c = 55 \/ c = 56 \/ c = 57) as Hc by lia.
    repeat destruct Hc as [->|Hc]; try reflexivity; subst; reflexivity.
  - repeat (apply Bool.orb_false_iff; split);
      try (apply N.eqb_neq; intro; subst; discriminate); reflexivity.
Qed.

End Further.

(** X1. [fuzzy_isoformat] refuses a marker exactly when it is not one
    character long or is one of the ASCII digits ['0'..'9'], and the
    error is then [InvalidMarker] holding the marker; any other marker
    gives a string. *)
Theorem fuzzy_isoformat_marker_check (fd : fuzzydate) (marker : pystr) :
  match fuzzy_isoformat fd marker with
  | Err e => e = InvalidMarker marker /\
             (List.length marker <> 1%nat \/ exists c, marker = [c] /\ 48 <= c <= 57)
  | Ok _ => List.length marker = 1%nat /\ forall c, marker = [c] -> ~ (48 <= c <= 57)
  end.
Proof.
  unfold fuzzy_isoformat.
  destruct marker as [|c [|c' r]].
  - cbn. split; [reflexivity | left; discriminate].
  - rewrite str_contains_digits_single. cbn [List.length Nat.eqb negb orb].
    unfold ascii_isdigit. destruct ((48 <=? c) && (c <=? 57)) eqn:E.
    + apply Bool.andb_true_iff in E. rewrite !N.leb_le in E.
      split; [reflexivity | right; eauto].
    + split; [reflexivity|]. intros c0 Hc0. injection Hc0 as ->.
      intros [H1 H2]. apply N.leb_le in H1, H2. rewrite H1, H2 in E. discriminate.
  - cbn [List.length Nat.eqb negb orb]. split; [reflexivity | left; discriminate].
Qed.

(** X2. For a marker that is not a decimal digit, [fuzzy_isoformat] is
    one-to-one on the instances the constructor builds: two instances
    giving the same string are the same instance (unlike [==], which
    ignores the fuzzy flags). *)
Theorem fuzzy_isoformat_injective (y1 y2 : Z) (m1 d1 m2 d2 : option Z)
  (fd1 fd2 : fuzzydate) (c : N) (s : pystr)
  (H1 : fuzzydate_new y1 m1 d1 = Ok fd1) (H2 : fuzzydate_new y2 m2 d2 = Ok fd2)
  (Hc : unicode_decimal c = None)
  (E1 : fuzzy_isoformat fd1 [c] = Ok s) (E2 : fuzzy_isoformat fd2 [c] = Ok s) :
  fd1 = fd2.
Proof.
  destruct (isoformat_parse_back _ _ _ _ _ H1 Hc) as (s1 & F1 & P1).
  destruct (isoformat_parse_back _ _ _ _ _ H2 Hc) as (s2 & F2 & P2).
  rewrite E1 in F1. rewrite E2 in F2. injection F1 as <-. injection F2 as <-.
  rewrite P1 in P2. injection P2 as P2. exact P2.
Qed.

Lemma fuzzy_isoformat_injective_witness :
  fuzzydate_new 2020 (Some 6%Z) None = Ok (mkfuzzy (mkdate 2020 6 1) false true) /\
  fuzzydate_new 2020 (Some 6%Z) None = Ok (mkfuzzy (mkdate 2020 6 1) false true) /\
  unicode_decimal 63 = None /\
  fuzzy_isoformat (mkfuzzy (mkdate 2020 6 1) false true) [63] = Ok (s2l "2020-06-??") /\
  mkfuzzy (mkdate 2020 6 1) false true = mkfuzzy (mkdate 2020 6 1) false true.
Proof.
  do 4 (split; [reflexivity|]).
  apply (fuzzy_isoformat_injective 2020 2020 (Some 6%Z) None (Some 6%Z) None
           _ _ 63 (s2l "2020-06-??")); reflexivity.
Defined.

(** X3. A fuzzy-day instance (day absent) can be built exactly when the
    year is in 1..9999 and the month, if given, is in 1..12: the stored
    day 1 never fails the day check. *)
Theorem fuzzy_day_new_ok (y : Z) (m : option Z) :
  (exists fd, fuzzydate_new y m None = Ok fd) <->
  ((1 <= y <= 9999)%Z /\ match m with None => True | Some v => (1 <= v <= 12)%Z end).
Proof.
  split.
  - intros [fd H]. apply fuzzydate_new_shape in H. destruct H as [_ [_ Hv]].
    unfold valid_date in Hv. rewrite !Bool.andb_true_iff, !Z.leb_le in Hv.
    destruct m; cbn [default1] in Hv; lia.
  - intros [Hy Hm].
    assert (Hv : valid_date y (default1 m) 1 = true).
    { unfold valid_date. rewrite !Bool.andb_true_iff, !Z.leb_le.
      assert (28 <= days_in_month y (default1 m))%Z
        by (unfold days_in_month; repeat destruct (_ =? _)%Z;
            destruct (is_leap y); simpl; lia).
      destruct m; cbn [default1] in *; lia. }
    unfold fuzzydate_new. destruct m; cbn [is_none default1 negb andb] in *;
      rewrite (date_new_valid _ _ _ Hv); eauto.
Qed.

Section Bounds.

Lemma take_while_length (p : N -> bool) (l : list N) :
  (List.length (take_while p l) <= List.length l)%nat.
Proof. induction l as [|c l IH]; simpl; [lia|]. destruct (p c); simpl; lia. Qed.

Lemma drop_while_length (p : N -> bool) (l : list N) :
  (List.length (drop_while p l) <= List.length l)%nat.
Proof. induction l as [|c l IH]; simpl; [lia|]. destruct (p c); simpl; lia. Qed.

Lemma take_while_all (p : N -> bool) (l : list N) : forallb p (take_while p l) = true.
Proof.
  induction l as [|c l IH]; simpl; [reflexivity|].
  destruct (p c) eqn:E; simpl; [rewrite E, IH|]; reflexivity.
Qed.

Lemma digits_fold_bound (l : list N) (acc : Z) :
  (0 <= acc)%Z -> forallb digit_or_underscore l = true ->
  (0 <= fold_left (fun acc (c : N) => if (c =? 95)%N then acc else (10 * acc + Z.of_N (c - 48)%N)%Z) l acc
     < (acc + 1) * 10 ^ Z.of_nat (List.length l))%Z.
Proof.
  revert acc. induction l as [|c l IH]; intros acc Hacc Hall.
  - simpl. lia.
  - simpl in Hall. apply Bool.andb_true_iff in Hall. destruct Hall as [Hc Hall].
    cbn [fold_left List.length]. rewrite Nat2Z.inj_succ, Z.pow_succ_r by lia.
    assert (Hp : (0 < 10 ^ Z.of_nat (List.length l))%Z) by (apply Z.pow_pos_nonneg; lia).
    destruct (c =? 95) eqn:E.
    + specialize (IH acc Hacc Hall). nia.
    + unfold digit_or_underscore, ascii_isdigit in Hc. rewrite E, Bool.orb_false_r in Hc.
      apply Bool.andb_true_iff in Hc. destruct Hc as [H1 H2]. apply N.leb_le in H1, H2.
      assert (Hd : (0 <= Z.of_N (c - 48) <= 9)%Z) by lia.
      specialize (IH (10 * acc + Z.of_N (c - 48))%Z ltac:(lia) Hall). nia.
Qed.

Lemma pylong_bound (a : list N) (z : Z) :
  pylong_from_string a = Some z -> (Z.abs z < 10 ^ Z.of_nat (List.length a))%Z.
Proof.
  unfold pylong_from_string.
  pose proof (drop_while_length ascii_isspace a) as L1.
  destruct (drop_while ascii_isspace a) as [|c r] eqn:A1; [discriminate|].
  assert (Hs : exists sign a2, (sign = 1 \/ sign = -1)%Z /\
             (List.length a2 <= List.length a)%nat /\
             (let '(sign0, a3) :=
                if c =? 43 then (1%Z, r) else if c =? 45 then ((-1)%Z, r) else (1%Z, c :: r)
              in (sign0, a3)) = (sign, a2)).
  { simpl in L1. destruct (c =? 43); [|destruct (c =? 45)]; do 2 eexists;
      (split; [|split; [|reflexivity]]); simpl; lia. }
  destruct Hs as (sign & a2 & Hsg & L2 & E).
  destruct (if c =? 43 then _ else _) as [sign0 a3]. injection E as -> ->.
  destruct a2 as [|d r2] eqn:A2; [discriminate|].
  destruct (d =? 95); [discriminate|].
  rewrite <- A2.
  pose proof (take_while_length digit_or_underscore a2) as L3.
  pose proof (take_while_all digit_or_underscore a2) as Hall.
  destruct (take_while digit_or_underscore a2) as [|b bs] eqn:B; [discriminate|].
  destruct (_ || _ || _); [discriminate|]. intro H; injection H as <-.
  unfold digits_value.
  pose proof (digits_fold_bound (b :: bs) 0 ltac:(lia) Hall) as Hb.
  assert (Hle : (10 ^ Z.of_nat (List.length (b :: bs)) <= 10 ^ Z.of_nat (List.length a))%Z)
    by (apply Z.pow_le_mono_r; [lia | rewrite ?A2 in *; simpl in *; lia]).
  destruct Hsg as [->| ->]; lia.
Qed.

Lemma py_int_bound (s : pystr) (z : Z) :
  py_int s = Some z -> (Z.abs z < 10 ^ Z.of_nat (List.length s))%Z.
Proof. intro H. apply pylong_bound in H. rewrite length_map in H. exact H. Qed.

Lemma slice_length (s : pystr) (a b : nat) : (List.length (slice s a b) <= b - a)%nat.
Proof. unfold slice. rewrite length_firstn. lia. Qed.

Lemma field_bound (s : pystr) (a b : nat) (z : Z) :
  py_int (slice s a b) = Some z -> (Z.abs z < 10 ^ Z.of_nat (b - a))%Z.
Proof.
  intro H. apply py_int_bound in H.
  assert (10 ^ Z.of_nat (List.length (slice s a b)) <= 10 ^ Z.of_nat (b - a))%Z
    by (apply Z.pow_le_mono_r; [lia | pose proof (slice_length s a b); lia]).
  lia.
Qed.

Lemma parse_day_field_cases (s dd : pystr) (r : result (option Z)) :
  parse_day_field s dd = r ->
  r = Err (InconsistentMarker s) \/ r = Ok None \/ exists n, r = Ok (Some n) /\ py_int dd = Some n.
Proof.
  unfold parse_day_field. intros <-.
  destruct (py_int dd); [eauto|]. destruct (negb _); auto.
Qed.

Lemma parse_month_field_cases (s mm dd : pystr) (day_ : option Z) (r : result (option Z)) :
  parse_month_field s mm dd day_ = r ->
  r = Err (InconsistentMarker s) \/ r = Ok None \/ exists n, r = Ok (Some n) /\ py_int mm = Some n.
Proof.
  unfold parse_month_field. intros <-.
  destruct (py_int mm); [eauto|]. destruct (_ || _); auto.
Qed.

Lemma new_no_overflow (y : Z) (m d : option Z) :
  (Z.abs y < 10000)%Z ->
  match m with Some v => (Z.abs v < 100)%Z | None => True end ->
  match d with Some v => (Z.abs v < 100)%Z | None => True end ->
  fuzzydate_new y m d <> Err (InvalidDate IntOverflow).
Proof.
  intros Hy Hm Hd. unfold fuzzydate_new.
  destruct (is_none m && negb (is_none d)); [discriminate|].
  assert (Hf : forall v, (Z.abs v < 10000)%Z -> fits_c_int v = true).
  { intros v Hv. unfold fits_c_int. rewrite Bool.andb_true_iff, !Z.leb_le. lia. }
  unfold date_new.
  assert (Fm : fits_c_int (if is_none m then 1%Z else default1 m) = true)
    by (apply Hf; destruct m; cbn in *; lia).
  assert (Fd : fits_c_int (if is_none d then 1%Z else default1 d) = true)
    by (apply Hf; destruct d; cbn in *; lia).
  rewrite (Hf y Hy), Fm, Fd.
  cbn [andb negb].
  repeat match goal with
         | |- context [if ?c then _ else _] => destruct c
         end; congruence.
Qed.

End Bounds.



(** X5. [fuzzy_fromisoformat] never reaches the [OverflowError] of the
    date type: the fields it reads are at most four characters, so every
    integer it passes to the constructor lies strictly between -10000
    and 10000. *)
Theorem fromiso_never_overflows (v : pyval) :
  fuzzy_fromisoformat v <> Err (InvalidDate IntOverflow).
Proof.
  destruct v as [s|]; [|discriminate]. unfold fuzzy_fromisoformat.
  destruct (negb _); [discriminate|].
  destruct (negb (char_at s 4 =? 45)); [discriminate|].
  destruct (negb (char_at s 7 =? 45)); [discriminate|].
  destruct (parse_day_field s (slice s 8 10)) as [day_|e] eqn:Hd; cbn [bind];
    apply parse_day_field_cases in Hd.
  2: { destruct Hd as [Hd|[Hd|(n & Hd & _)]]; congruence. }
  destruct (parse_month_field s (slice s 5 7) (slice s 8 10) day_) as [month_|e] eqn:Hm;
    cbn [bind]; apply parse_month_field_cases in Hm.
  2: { destruct Hm as [Hm|[Hm|(n & Hm & _)]]; congruence. }
  destruct (py_int (slice s 0 4)) as [y|] eqn:Hy; [|discriminate].
  apply field_bound in Hy.
  apply new_no_overflow; [exact Hy | |].
  - destruct Hm as [Hm|[Hm|(n & Hm & Hn)]]; try congruence.
    + injection Hm as ->. exact I.
    + injection Hm as ->. apply field_bound in Hn. exact Hn.
  - destruct Hd as [Hd|[Hd|(n & Hd & Hn)]]; try congruence.
    + injection Hd as ->. exact I.
    + injection Hd as ->. apply field_bound in Hn. exact Hn.
Qed.

Section Compare.

Lemma byte_split_compare (y1 y2 : Z) (k : comparison) :
  (0 <= y1)%Z -> (0 <= y2)%Z ->
  match Z.compare (y1 / 256) (y2 / 256) with
  | Eq => match Z.compare (y1 mod 256) (y2 mod 256) with Eq => k | c => c end
  | c => c
  end = match Z.compare y1 y2 with Eq => k | c => c end.
Proof.
  intros H1 H2.
  pose proof (Z.div_mod y1 256 ltac:(lia)). pose proof (Z.div_mod y2 256 ltac:(lia)).
  pose proof (Z.mod_pos_bound y1 256 ltac:(lia)). pose proof (Z.mod_pos_bound y2 256 ltac:(lia)).
  destruct (Z.compare_spec (y1 / 256) (y2 / 256));
    destruct (Z.compare_spec y1 y2); try lia;
    try (destruct (Z.compare_spec (y1 mod 256) (y2 mod 256)); try lia);
    reflexivity.
Qed.

Lemma memcmp_eq (l1 l2 : list Z) :
  List.length l1 = List.length l2 -> memcmp l1 l2 = Eq -> l1 = l2.
Proof.
  revert l2. induction l1 as [|x l1 IH]; intros [|y l2] L E; try discriminate; [reflexivity|].
  simpl in E. destruct (Z.compare_spec x y); try discriminate.
  subst. f_equal. apply IH; [injection L; auto | exact E].
Qed.

Lemma uint_chars_no_comma (u : Decimal.uint) : ~ In 44 (uint_chars u).
Proof. induction u; simpl; intuition discriminate. Qed.

Lemma py_str_int_no_comma (n : Z) : ~ In 44 (py_str_int n).
Proof.
  unfold py_str_int. destruct (n <? 0)%Z; simpl; [|apply uint_chars_no_comma].
  intros [H|H]; [discriminate | exact (uint_chars_no_comma _ H)].
Qed.

Lemma fmt_field_no_comma (o : option Z) : ~ In 44 (fmt_field o).
Proof.
  destruct o; [apply py_str_int_no_comma|]. simpl. intuition discriminate.
Qed.

Lemma split_at_comma (l1 l2 r1 r2 : list N) :
  ~ In 44 l1 -> ~ In 44 l2 -> (l1 ++ 44 :: r1 = l2 ++ 44 :: r2)%list -> l1 = l2 /\ r1 = r2.
Proof.
  revert l2. induction l1 as [|a l1 IH]; intros [|b l2] N1 N2 E; simpl in *.
  - injection E; auto.
  - injection E as <- _. exfalso; auto.
  - injection E as -> _. exfalso; auto.
  - injection E as <- E. destruct (IH l2 ltac:(auto) ltac:(auto) E) as [-> ->]. auto.
Qed.

Lemma uint_chars_inj (u v : Decimal.uint) : uint_chars u = uint_chars v -> u = v.
Proof.
  revert v. induction u; intros [] E; simpl in E; try discriminate;
    try reflexivity; injection E as E; f_equal; auto.
Qed.

Lemma uint_chars_head (u : Decimal.uint) (c : N) (r : list N) :
  uint_chars u = c :: r -> 48 <= c <= 57.
Proof. destruct u; simpl; intro E; try discriminate; injection E as <- _; lia. Qed.

Lemma to_uint_nonempty (n : N) : exists c r, uint_chars (N.to_uint n) = c :: r.
Proof.
  destruct (uint_chars (N.to_uint n)) as [|c r] eqn:E; eauto.
  exfalso. destruct (N.to_uint n) eqn:U; try discriminate.
  assert (n = 0) by (rewrite <- (DecimalN.Unsigned.of_to n), U; reflexivity).
  subst n. simpl in U. discriminate U.
Qed.

Lemma py_str_int_inj (a b : Z) : py_str_int a = py_str_int b -> a = b.
Proof.
  unfold py_str_int.
  destruct (to_uint_nonempty (Z.abs_N a)) as (ca & ra & Ea).
  destruct (to_uint_nonempty (Z.abs_N b)) as (cb & rb & Eb).
  pose proof (uint_chars_head _ _ _ Ea). pose proof (uint_chars_head _ _ _ Eb).
  assert (K : uint_chars (N.to_uint (Z.abs_N a)) = uint_chars (N.to_uint (Z.abs_N b)) ->
              Z.abs a = Z.abs b).
  { intro E. apply uint_chars_inj, DecimalN.Unsigned.to_uint_inj in E.
    rewrite <- !N2Z.inj_abs_N, E. reflexivity. }
  destruct (Z.ltb_spec a 0), (Z.ltb_spec b 0); intro E.
  - injection E as E. apply K in E. lia.
  - rewrite Eb in E. injection E as <- _. lia.
  - rewrite Ea in E. injection E as -> _. lia.
  - apply K in E. lia.
Qed.

Lemma fmt_field_inj (o1 o2 : option Z) : fmt_field o1 = fmt_field o2 -> o1 = o2.
Proof.
  destruct o1 as [a|], o2 as [b|]; simpl; intro E; try reflexivity.
  - f_equal. apply py_str_int_inj, E.
  - exfalso. unfold py_str_int in E.
    destruct (to_uint_nonempty (Z.abs_N a)) as (c & r & Ea).
    pose proof (uint_chars_head _ _ _ Ea).
    destruct (a <? 0)%Z; [discriminate|]. rewrite Ea in E. simpl in E. injection E as Ec _. lia.
  - exfalso. unfold py_str_int in E.
    destruct (to_uint_nonempty (Z.abs_N b)) as (c & r & Eb).
    pose proof (uint_chars_head _ _ _ Eb).
    destruct (b <? 0)%Z; [discriminate|]. rewrite Eb in E. simpl in E. injection E as Ec _. lia.
Qed.

End Compare.

(** X6. For two objects whose stored dates are valid, the inherited
    comparisons (byte-wise [memcmp] of the date data) order them
    chronologically: by year, then month, then day. *)
Theorem richcompare_chronological (op : cmp_op) (a b : dateobj)
  (Ha : valid_date (year (date_data a)) (month (date_data a)) (day (date_data a)) = true)
  (Hb : valid_date (year (date_data b)) (month (date_data b)) (day (date_data b)) = true) :
  date_richcompare op a b = diff_to_bool (chrono_compare (date_data a) (date_data b)) op.
Proof.
  unfold date_richcompare, chrono_compare. revert Ha Hb.
  destruct (date_data a) as [y1 m1 d1], (date_data b) as [y2 m2 d2].
  cbn [data_bytes memcmp year month day]. intros Ha Hb.
  unfold valid_date in Ha, Hb. rewrite !Bool.andb_true_iff, !Z.leb_le in Ha, Hb.
  rewrite byte_split_compare by lia.
  f_equal. destruct (y1 ?= y2)%Z; try reflexivity.
  destruct (m1 ?= m2)%Z; try reflexivity. destruct (d1 ?= d2)%Z; reflexivity.
Qed.

Lemma richcompare_chronological_witness :
  valid_date 2020 6 1 = true /\ valid_date 2019 12 31 = true /\
  date_richcompare Py_GT (Fuzzy (mkfuzzy (mkdate 2020 6 1) false true))
                         (PlainDate (mkdate 2019 12 31))
  = diff_to_bool (chrono_compare (mkdate 2020 6 1) (mkdate 2019 12 31)) Py_GT.
Proof.
  split; [reflexivity|]. split; [reflexivity|].
  apply (richcompare_chronological Py_GT (Fuzzy (mkfuzzy (mkdate 2020 6 1) false true))
           (PlainDate (mkdate 2019 12 31))); reflexivity.
Defined.

(** X7. Objects that compare equal with [==] have the same hash, for
    any byte hash function: [date_hash] reads exactly the bytes that
    [date_richcompare] compares. *)
Theorem eq_same_hash (h : list Z -> Z) (a b : dateobj)
  (E : date_richcompare Py_EQ a b = true) :
  date_hash h a = date_hash h b.
Proof.
  unfold date_richcompare in E. unfold date_hash.
  destruct (memcmp (data_bytes (date_data a)) (data_bytes (date_data b))) eqn:M;
    try discriminate.
  rewrite (memcmp_eq _ _ (eq_refl : List.length (data_bytes (date_data a))
                                    = List.length (data_bytes (date_data b))) M).
  reflexivity.
Qed.

Lemma eq_same_hash_witness :
  date_richcompare Py_EQ (Fuzzy (mkfuzzy (mkdate 2020 1 1) true true))
                         (PlainDate (mkdate 2020 1 1)) = true /\
  date_hash (fun l => fold_left Z.add l 0%Z) (Fuzzy (mkfuzzy (mkdate 2020 1 1) true true))
  = date_hash (fun l => fold_left Z.add l 0%Z) (PlainDate (mkdate 2020 1 1)).
Proof.
  split; [reflexivity|].
  apply (eq_same_hash (fun l => fold_left Z.add l 0%Z)
           (Fuzzy (mkfuzzy (mkdate 2020 1 1) true true)) (PlainDate (mkdate 2020 1 1))).
  reflexivity.
Defined.

(** X8. [repr()] determines the logical value: two instances with the
    same [repr()] have the same year, the same logical month and the same
    logical day (absent or not). *)
Theorem repr_determines_logical_value (fd1 fd2 : fuzzydate)
  (E : py_repr fd1 = py_repr fd2) :
  year (as_date fd1) = year (as_date fd2) /\
  logical_month fd1 = logical_month fd2 /\ logical_day fd1 = logical_day fd2.
Proof.
  unfold py_repr in E. apply app_inv_head in E.
  apply split_at_comma in E; [|apply py_str_int_no_comma..].
  destruct E as [Ey E]. injection E as E.
  apply split_at_comma in E; [|apply fmt_field_no_comma..].
  destruct E as [Em E]. injection E as E. apply app_inj_tail in E. destruct E as [Ed _].
  split; [apply py_str_int_inj, Ey|].
  split; apply fmt_field_inj; assumption.
Qed.

Lemma repr_determines_logical_value_witness :
  py_repr (mkfuzzy (mkdate 2020 6 1) false true) = py_repr (mkfuzzy (mkdate 2020 6 15) false true) /\
  (year (as_date (mkfuzzy (mkdate 2020 6 1) false true))
     = year (as_date (mkfuzzy (mkdate 2020 6 15) false true)) /\
   logical_month (mkfuzzy (mkdate 2020 6 1) false true)
     = logical_month (mkfuzzy (mkdate 2020 6 15) false true) /\
   logical_day (mkfuzzy (mkdate 2020 6 1) false true)
     = logical_day (mkfuzzy (mkdate 2020 6 15) false true)).
Proof.
  split; [reflexivity|].
  apply (repr_determines_logical_value (mkfuzzy (mkdate 2020 6 1) false true)
           (mkfuzzy (mkdate 2020 6 15) false true)).
  reflexivity.
Defined.
